(** * Arivar API (main.py): a shallow embedding of the request handlers

    The service is a FastAPI application with five handlers:
    [read_root] (GET /), [hello] (GET /api/hello), [test_database]
    (GET /test), [create_lead] (POST /api/leads) and [get_schema]
    (GET /schema).  The handlers are glue around three collaborators that
    are imported at run time: the [database] module (the handle [db] and the
    function [create_document]), the [schemas] module (the class [Lead] and
    any other validated-model class) and the process environment.

    Python values are embedded as a small universe [pyval]; a Python [str]
    is the list of its Unicode code points, so that the slice [s[:50]] is
    [take 50 s].  Code that can raise is written in a state-and-exception
    monad [py S E]: the state survives a raised exception, exactly as a
    mutated local dictionary survives a [try]/[except] block. *)

From Stdlib Require Import ZArith NArith String Ascii.
From stdpp Require Import base option list countable gmap.

Local Open Scope N_scope.

(** ** Python strings *)

(** A [str] is a sequence of code points. *)
Abbreviation pystr := (list N).

(** The bytes of a source literal, to be decoded from UTF-8. *)
Fixpoint bytes_of (s : string) : list N :=
  match s with
  | EmptyString => []
  | String a s' => N_of_ascii a :: bytes_of s'
  end.

(** UTF-8 decoding of a well-formed byte sequence (the source file is
    UTF-8); a truncated sequence ends the decoding. *)
Fixpoint utf8_decode (bs : list N) : pystr :=
  match bs with
  | [] => []
  | b0 :: r0 =>
    if b0 <? 128 then b0 :: utf8_decode r0
    else match r0 with
    | [] => []
    | b1 :: r1 =>
      if b0 <? 224 then ((b0 - 192) * 64 + (b1 - 128)) :: utf8_decode r1
      else match r1 with
      | [] => []
      | b2 :: r2 =>
        if b0 <? 240
        then ((b0 - 224) * 4096 + (b1 - 128) * 64 + (b2 - 128)) :: utf8_decode r2
        else match r2 with
        | [] => []
        | b3 :: r3 =>
          ((b0 - 240) * 262144 + (b1 - 128) * 4096 + (b2 - 128) * 64 + (b3 - 128))
            :: utf8_decode r3
        end
      end
    end
  end.

(** A string literal of the source. *)
Definition lit (s : string) : pystr := utf8_decode (bytes_of s).
Arguments lit s%_string.

Fixpoint pystr_eqb (s t : pystr) : bool :=
  match s, t with
  | [], [] => true
  | a :: s', b :: t' => (a =? b) && pystr_eqb s' t'
  | _, _ => false
  end.

(** [startswith p s] is Python's [s.startswith(p)]. *)
Fixpoint startswith (p s : pystr) : bool :=
  match p, s with
  | [], _ => true
  | a :: p', b :: s' => (a =? b) && startswith p' s'
  | _ :: _, [] => false
  end.


(** ** Python values *)

(** The values a JSON body can hold, which is what the handlers receive and
    return.  A [dict] keeps its insertion order. *)
#[warnings="-register-all"]
Inductive pyval : Type :=
| PNone
| PBool (b : bool)
| PInt (n : Z)
| PStr (s : pystr)
| PList (xs : list pyval)
| PDict (kvs : list (pystr * pyval)).

Abbreviation dict := (list (pystr * pyval)).

(** [d.get(k)] *)
Fixpoint getitem (k : pystr) (d : dict) : option pyval :=
  match d with
  | [] => None
  | (k', v) :: d' => if pystr_eqb k k' then Some v else getitem k d'
  end.

(** [d[k] = v]: replaces the value in place when the key is present and
    appends the binding otherwise. *)
Fixpoint setitem (k : pystr) (v : pyval) (d : dict) : dict :=
  match d with
  | [] => [(k, v)]
  | (k', v') :: d' =>
    if pystr_eqb k k' then (k', v) :: d' else (k', v') :: setitem k v d'
  end.

(** [type(v).__name__] *)
Definition type_name (v : pyval) : pystr :=
  match v with
  | PNone => lit "NoneType"
  | PBool _ => lit "bool"
  | PInt _ => lit "int"
  | PStr _ => lit "str"
  | PList _ => lit "list"
  | PDict _ => lit "dict"
  end.

(** ** Exceptions *)

(** An instance of [Exception] as the handlers observe it: whether
    [except ImportError] catches it, and its [str].  ([BaseException]s that
    are not [Exception]s, such as [KeyboardInterrupt], are signals to the
    interpreter and are not modelled.) *)
Record exn : Type := mk_exn {
  is_ImportError : bool;
  str : pystr
}.

Definition ImportError (msg : pystr) : exn := mk_exn true msg.
Definition TypeError (msg : pystr) : exn := mk_exn false msg.
Definition RuntimeError (msg : pystr) : exn := mk_exn false msg.

(** [fastapi.HTTPException(status_code=..., detail=...)] *)
Record HTTPException : Type := mk_HTTPException {
  status_code : Z;
  detail : pystr
}.

(** ** The state-and-exception monad *)

Inductive outcome (E A : Type) : Type :=
| Return (a : A)
| Raise (e : E).
Arguments Return {E A} a.
Arguments Raise {E A} e.

Definition py (S E A : Type) : Type := S → outcome E A * S.

Section Monad.
Context {S E : Type}.

#[export] Instance py_ret : MRet (py S E) := λ A a s, (Return a, s).

#[export] Instance py_bind : MBind (py S E) := λ A B f m s,
  match m s with
  | (Return a, s') => f a s'
  | (Raise e, s') => (Raise e, s')
  end.

(** [raise e] *)
Definition raise {A} (e : E) : py S E A := λ s, (Raise e, s).

(** Reading and writing the state. *)
Definition get : py S E S := λ s, (Return s, s).
Definition put (s : S) : py S E unit := λ _, (Return (), s).
Definition modify (f : S → S) : py S E unit := λ s, (Return (), f s).

(** The result of a call that does not touch the state. *)
Definition call {A} (r : outcome E A) : py S E A := λ s, (r, s).
End Monad.

(** [try: body except Exception as e: handler(e)].  The handler runs in the
    state the body left behind; it may raise another kind of exception. *)
Definition try_except {S E E' A} (body : py S E A) (handler : E → py S E' A)
  : py S E' A := λ s,
  match body s with
  | (Return a, s') => (Return a, s')
  | (Raise e, s') => handler e s'
  end.

(** ** The greeting handlers (main.py, lines 18-25) *)

Section Greetings.
(** The handlers take no argument and read nothing: they are written over
    an arbitrary server state and an arbitrary exception type. *)
Context {S E : Type}.

Definition read_root : py S E pyval :=
  mret (PDict [(lit "message", PStr (lit "Hello from FastAPI Backend!"))]).

Definition hello : py S E pyval :=
  mret (PDict [(lit "message", PStr (lit "Hello from the backend API!"))]).
End Greetings.

Section Service.
(** The validated Lead value and the state of the document store belong
    to the collaborators; the handlers only pass them on. *)
Context {LeadModel db_state : Type}.

(** ** Collaborators *)

(** The handle [database.db].  [name] is [Some n] when
    [hasattr(db, 'name')] holds, with [n] the value of [db.name];
    [list_collection_names] is the outcome of [db.list_collection_names()]. *)
Record DbHandle : Type := {
  name : option pyval;
  list_collection_names : outcome exn (list pystr)
}.

(** The class [schemas.Lead]: how the interpreter prints the callable in
    an error message, and the outcome of the constructor on keyword
    arguments. *)
Record LeadClass : Type := {
  funcstr : pystr;
  validate : dict → outcome exn LeadModel
}.

(** The function [database.create_document(kind, value)]: it returns the
    identifier of the stored document, or raises; either way it may have
    changed the store. *)
Definition CreateDocument : Type :=
  pystr → LeadModel → db_state → outcome exn pystr * db_state.

(** What [getattr(schemas_module, name)] can be, as far as the test
    [isinstance(obj, type) and issubclass(obj, BaseModel) and obj is not BaseModel]
    tells objects apart. *)
Inductive pyobj : Type :=
| NotAClass
| OtherClass
| BaseModel
| ModelClass (model_json_schema : outcome exn pyval).

(** Everything the handlers reach outside main.py: the outcome of each
    import statement and the process environment.  An import yields
    [Return None] when the name is bound to [None]. *)
Record World : Type := {
  import_db : outcome exn (option DbHandle);
  import_Lead : outcome exn (option LeadClass);
  import_create_document : outcome exn (option CreateDocument);
  (** [import schemas], then [dir] and [getattr] on the module: the
      exported names in the order of [dir], each with its object. *)
  import_schemas : outcome exn (list (pystr * pyobj));
  environ : gmap pystr pystr
}.

(** [os.getenv(k)] *)
Definition getenv (w : World) (k : pystr) : option pystr := environ w !! k.

(** Truth value of [os.getenv(k)]: [None] and the empty string are false. *)
Definition truthy (v : option pystr) : bool :=
  match v with
  | Some (_ :: _) => true
  | _ => false
  end.

(** ** GET /test (main.py, lines 28-69) *)

(** line 31 *)
Definition initial_response : dict :=
  [ (lit "backend", PStr (lit "✅ Running"));
    (lit "database", PStr (lit "❌ Not Available"));
    (lit "database_url", PNone);
    (lit "database_name", PNone);
    (lit "connection_status", PStr (lit "Not Connected"));
    (lit "collections", PList []) ].

(** [response[k] = v] *)
Definition response_set (k : pystr) (v : pyval) : py dict exn unit :=
  modify (setitem k v).

(** lines 45-48 *)
Definition mark_available (db : DbHandle) : py dict exn unit :=
  response_set (lit "database") (PStr (lit "✅ Available"));;
  response_set (lit "database_url") (PStr (lit "✅ Configured"));;
  response_set (lit "database_name")
    (match name db with
     | Some n => n
     | None => PStr (lit "✅ Connected")
     end);;
  response_set (lit "connection_status") (PStr (lit "Connected")).

(** lines 51-56 *)
Definition verify_connectivity (db : DbHandle) : py dict exn unit :=
  try_except
    (collections ← call (list_collection_names db);
     response_set (lit "collections") (PList (PStr <$> take 10 collections));;
     response_set (lit "database") (PStr (lit "✅ Connected & Working")))
    (λ e, response_set (lit "database")
            (PStr (lit "⚠️  Connected but Error: " ++ take 50 (str e)))).

(** lines 40-63 *)
Definition probe (w : World) : py dict exn unit :=
  try_except
    (db ← call (import_db w);
     match db with
     | Some db => mark_available db;; verify_connectivity db
     | None =>
       response_set (lit "database")
         (PStr (lit "⚠️  Available but not initialized"))
     end)
    (λ e,
       if is_ImportError e
       then response_set (lit "database")
              (PStr (lit "❌ Database module not found (run enable-database first)"))
       else response_set (lit "database")
              (PStr (lit "❌ Error: " ++ take 50 (str e)))).

(** The flag reported for an environment variable (lines 66-67). *)
Definition env_flag (v : option pystr) : pyval :=
  if truthy v then PStr (lit "✅ Set") else PStr (lit "❌ Not Set").

(** lines 65-67 *)
Definition check_environment (w : World) : py dict exn unit :=
  response_set (lit "database_url") (env_flag (getenv w (lit "DATABASE_URL")));;
  response_set (lit "database_name") (env_flag (getenv w (lit "DATABASE_NAME"))).

(** The handler: [response] is its local variable. *)
Definition test_database_body (w : World) : py dict exn dict :=
  put initial_response;;
  probe w;;
  check_environment w;;
  get.

(** What crosses the endpoint boundary: the returned report, or the
    exception that escaped. *)
Definition test_database (w : World) : outcome exn dict :=
  (test_database_body w []).1.

(** ** Module start-up (main.py, lines 73-78) *)

(** The module-level names [Lead] and [create_document]. *)
Record globals : Type := {
  Lead : option LeadClass;
  create_document : option CreateDocument
}.

(** Both imports sit in one [try]: when either raises, both names are
    bound to [None]. *)
Definition startup (w : World) : globals :=
  match import_Lead w with
  | Return L =>
    match import_create_document w with
    | Return cd => {| Lead := L; create_document := cd |}
    | Raise _ => {| Lead := None; create_document := None |}
    end
  | Raise _ => {| Lead := None; create_document := None |}
  end.

(** ** POST /api/leads (main.py, lines 81-97) *)

(** The calls the handler makes to its collaborators, in order. *)
Inductive event : Type :=
| Lead_called (kwargs : dict)
| create_document_called (kind : pystr) (value : LeadModel).

(** The state a request runs in: the document store and the calls made so
    far. *)
Record server : Type := {
  store : db_state;
  trace : list event
}.

Definition log (ev : event) (s : server) : server :=
  {| store := store s; trace := trace s ++ [ev] |}.

(** The value of the call of [Lead] on the keyword arguments unpacked
    from [lead] (line 89).  The unpacking raises a [TypeError] unless
    [lead] is a mapping, and then the class is not called at all. *)
Definition Lead_new (L : LeadClass) (lead : pyval) : outcome exn LeadModel :=
  match lead with
  | PDict kwargs => validate L kwargs
  | _ =>
    Raise (TypeError (funcstr L ++ lit " argument after ** must be a mapping, not "
                        ++ type_name lead))
  end.

(** Evaluating line 89 in the server. *)
Definition Lead_call (L : LeadClass) (lead : pyval) : py server exn LeadModel :=
  λ s,
    (Lead_new L lead,
     match lead with
     | PDict kwargs => log (Lead_called kwargs) s
     | _ => s
     end).

(** Evaluating [create_document(kind, value)] in the server. *)
Definition create_document_call (cd : CreateDocument) (kind : pystr)
    (value : LeadModel) : py server exn pystr :=
  λ s,
    let '(r, st) := cd kind value (store s) in
    (r, {| store := st; trace := trace s ++ [create_document_called kind value] |}).

Definition create_lead (g : globals) (lead : pyval)
  : py server HTTPException pyval :=
  match Lead g, create_document g with
  | Some L, Some cd =>
    lead_model ← try_except (Lead_call L lead)
                    (λ e, raise (mk_HTTPException 422 (str e)));
    try_except
      (lead_id ← create_document_call cd (lit "lead") lead_model;
       mret (PDict [(lit "status", PStr (lit "ok")); (lit "id", PStr lead_id)]))
      (λ e, raise (mk_HTTPException 500 (str e)))
  | _, _ =>
    raise (mk_HTTPException 500 (lit "Database not configured"))
  end.

(** ** GET /schema (main.py, lines 101-112) *)

(** [result[name] = v] *)
Definition result_set (k : pystr) (v : pyval) : py dict exn unit :=
  modify (setitem k v).

(** The body of the [for] loop, lines 106-109. *)
Fixpoint get_schema_loop (names : list (pystr * pyobj)) : py dict exn unit :=
  match names with
  | [] => mret ()
  | (name, obj) :: rest =>
    match obj with
    | ModelClass model_json_schema =>
      schema ← call model_json_schema;
      result_set name schema
    | _ => mret ()
    end;;
    get_schema_loop rest
  end.

(** The handler: [result] is its local variable; the [except] branch
    returns a fresh empty dictionary. *)
Definition get_schema_body (w : World) : py dict exn dict :=
  try_except
    (schemas_module ← call (import_schemas w);
     put [];;
     get_schema_loop schemas_module;;
     get)
    (λ _, mret []).

Definition get_schema (w : World) : outcome exn dict :=
  (get_schema_body w []).1.

(** ** Observations on the handlers' results *)

(** The value a returned report holds under key [k]; [None] when the
    handler raised or the key is absent. *)
Definition report_field (k : pystr) (w : World) : option pyval :=
  match test_database w with
  | Return response => getitem k response
  | Raise _ => None
  end.

(** How many of the logged calls went to [create_document]. *)
Fixpoint persistence_calls (t : list event) : nat :=
  match t with
  | [] => 0%nat
  | create_document_called _ _ :: t' => Datatypes.S (persistence_calls t')
  | Lead_called _ :: t' => persistence_calls t'
  end.

(** The catalog entry a name of the schemas module contributes once its
    description has been computed: one for a proper subclass of
    [BaseModel], none for anything else. *)
Definition catalog_entry (binding : pystr * pyobj) : option (pystr * pyval) :=
  match binding with
  | (name, ModelClass (Return schema)) => Some (name, schema)
  | _ => None
  end.

(** Whether a name is bound to a model class whose
    [model_json_schema()] raises. *)
Definition schema_raises (binding : pystr * pyobj) : bool :=
  match binding with
  | (_, ModelClass (Raise _)) => true
  | _ => false
  end.

(** Modelled from the spec: [database.create_document] is not part of
    main.py.  The spec gives its interface as
    [create_document(kind: string, value) -> id], calls the result "the
    newly generated identifier" and takes it to be non-empty in its
    testable properties; that is the contract assumed of a successful
    call. *)
Definition returns_generated_id (cd : CreateDocument) : Prop :=
  ∀ kind value st lead_id st',
    cd kind value st = (Return lead_id, st') → lead_id ≠ [].
End Service.

Arguments World : clear implicits.
Arguments globals : clear implicits.
Arguments LeadClass : clear implicits.
Arguments CreateDocument : clear implicits.
Arguments event : clear implicits.
Arguments server : clear implicits.

(** ** Example collaborators, on which the handlers can be evaluated *)

(** A live handle. *)
Definition arivar_db : DbHandle :=
  {| name := Some (PStr (lit "arivar"));
     list_collection_names := Return [lit "lead"; lit "user"] |}.


(** A Lead class that requires an [email]; its validated value is the
    dictionary of its fields. *)
Definition email_required : exn :=
  mk_exn false (lit "1 validation error for Lead: email Field required").

Definition Lead_example : LeadClass dict :=
  {| funcstr := lit "schemas.Lead()";
     validate := λ kwargs,
       match getitem (lit "email") kwargs with
       | Some _ => Return kwargs
       | None => Raise email_required
       end |}.

(** A store kept in memory: the documents in order of creation, each
    identified by its position. *)
Definition memory_create_document : CreateDocument dict (list (pystr * dict)) :=
  λ kind value st,
    (Return (lit "doc" ++ replicate (length st) 35), st ++ [(kind, value)]).

Definition schemas_example : list (pystr * pyobj) :=
  [ (lit "BaseModel", BaseModel);
    (lit "Field", NotAClass);
    (lit "Lead", ModelClass (Return (PDict [(lit "title", PStr (lit "Lead"))])));
    (lit "Optional", NotAClass) ].

(** Everything in place. *)
Definition wired_world : World dict (list (pystr * dict)) :=
  {| import_db := Return (Some arivar_db);
     import_Lead := Return (Some Lead_example);
     import_create_document := Return (Some memory_create_document);
     import_schemas := Return schemas_example;
     environ := {[ lit "DATABASE_URL" := lit "mongodb://localhost:27017" ]} |}.

(** The [schemas] module is there, the [database] module is not. *)
Definition no_database : exn := ImportError (lit "No module named 'database'").

Definition world_without_database : World dict (list (pystr * dict)) :=
  {| import_db := Raise no_database;
     import_Lead := Return (Some Lead_example);
     import_create_document := Raise no_database;
     import_schemas := Return schemas_example;
     environ := ∅ |}.


Definition empty_server : server dict (list (pystr * dict)) :=
  {| store := []; trace := [] |}.

(** A store that rejects every write: the call raises and the store stays
    as it was. *)
Definition write_rejected : exn :=
  RuntimeError (lit "not primary: write rejected").

Definition rejecting_create_document : CreateDocument dict (list (pystr * dict)) :=
  λ kind value st, (Raise write_rejected, st).

Definition world_with_rejecting_store : World dict (list (pystr * dict)) :=
  {| import_db := Return (Some arivar_db);
     import_Lead := Return (Some Lead_example);
     import_create_document := Return (Some rejecting_create_document);
     import_schemas := Return schemas_example;
     environ := ∅ |}.

(** The [database] module is there but raises while it is imported, with
    a message of more than 50 characters. *)
Definition invalid_uri : exn :=
  mk_exn false
    (lit "Invalid URI scheme: URI must begin with 'mongodb://' or 'mongodb+srv://'").

Definition world_with_crashing_import : World dict (list (pystr * dict)) :=
  {| import_db := Raise invalid_uri;
     import_Lead := Return (Some Lead_example);
     import_create_document := Raise invalid_uri;
     import_schemas := Return schemas_example;
     environ := ∅ |}.




(** * Properties *)

(** ** Strings and dictionaries *)

Lemma pystr_eqb_eq (s t : pystr) : pystr_eqb s t = true ↔ s = t.
Proof.
  revert t; induction s as [|a s IH]; intros [|b t]; simpl; try easy.
  rewrite andb_true_iff, N.eqb_eq, IH. split.
  - intros [-> ->]; reflexivity.
  - intros [= -> ->]; auto.
Qed.

Lemma pystr_eqb_refl (s : pystr) : pystr_eqb s s = true.
Proof. apply pystr_eqb_eq; reflexivity. Qed.

Lemma pystr_eqb_neq (s t : pystr) : pystr_eqb s t = false ↔ s ≠ t.
Proof.
  rewrite <- pystr_eqb_eq. destruct (pystr_eqb s t); split; congruence.
Qed.

Lemma pystr_eqb_sym (s t : pystr) : pystr_eqb s t = pystr_eqb t s.
Proof.
  destruct (pystr_eqb t s) eqn:E.
  - apply pystr_eqb_eq in E as ->. apply pystr_eqb_refl.
  - apply pystr_eqb_neq. apply pystr_eqb_neq in E. congruence.
Qed.

Lemma getitem_setitem_eq (k : pystr) (v : pyval) (d : dict) :
  getitem k (setitem k v d) = Some v.
Proof.
  induction d as [|[k' v'] d IH]; simpl.
  - rewrite pystr_eqb_refl; reflexivity.
  - destruct (pystr_eqb k k') eqn:E; simpl; rewrite E; auto.
Qed.

Lemma getitem_setitem_ne (k k' : pystr) (v : pyval) (d : dict) :
  pystr_eqb k' k = false → getitem k' (setitem k v d) = getitem k' d.
Proof.
  intros Hne. induction d as [|[k0 v0] d IH]; simpl.
  - rewrite Hne; reflexivity.
  - destruct (pystr_eqb k k0) eqn:E; simpl.
    + apply pystr_eqb_eq in E as <-. rewrite Hne; reflexivity.
    + rewrite IH; reflexivity.
Qed.

(** Assigning to a key keeps the keys and their order when the key is
    bound already, and appends the binding otherwise. *)
Lemma setitem_keys_bound (k : pystr) (v : pyval) (d : dict) :
  k ∈ d.*1 → (setitem k v d).*1 = d.*1.
Proof.
  induction d as [|[k' v'] d IH]; simpl.
  - intros H; inversion H.
  - intros H. destruct (pystr_eqb k k') eqn:E; simpl; [reflexivity|].
    f_equal. apply IH. apply elem_of_cons in H as [->|H]; [|exact H].
    rewrite pystr_eqb_refl in E; discriminate.
Qed.

Lemma setitem_fresh (k : pystr) (v : pyval) (d : dict) :
  k ∉ d.*1 → setitem k v d = d ++ [(k, v)].
Proof.
  induction d as [|[k' v'] d IH]; simpl; [reflexivity|].
  intros H. apply not_elem_of_cons in H as [Hne H].
  apply pystr_eqb_neq in Hne. rewrite Hne, IH by exact H. reflexivity.
Qed.

Lemma startswith_app (p s : pystr) : startswith p (p ++ s) = true.
Proof.
  induction p as [|a p IH]; simpl; [reflexivity|].
  rewrite N.eqb_refl, IH; reflexivity.
Qed.

(** ** The monad *)

Lemma bind_Return {S E A B} (m : py S E A) (f : A → py S E B) s a s' :
  m s = (Return a, s') → (m ≫= f) s = f a s'.
Proof. unfold mbind, py_bind. intros ->; reflexivity. Qed.

Lemma bind_Raise {S E A B} (m : py S E A) (f : A → py S E B) s e s' :
  m s = (Raise e, s') → (m ≫= f) s = (Raise e, s').
Proof. unfold mbind, py_bind. intros ->; reflexivity. Qed.

Lemma try_except_Return {S E E' A} (m : py S E A) (h : E → py S E' A) s a s' :
  m s = (Return a, s') → try_except m h s = (Return a, s').
Proof. unfold try_except. intros ->; reflexivity. Qed.

Lemma try_except_Raise {S E E' A} (m : py S E A) (h : E → py S E' A) s e s' :
  m s = (Raise e, s') → try_except m h s = h e s'.
Proof. unfold try_except. intros ->; reflexivity. Qed.

(** ** GET / and GET /api/hello *)

(** C9. [read_root] and [hello] are constant: in every server state, and
    whatever the kind of exception the server knows, each returns its
    literal body, [{"message": "Hello from FastAPI Backend!"}] and
    [{"message": "Hello from the backend API!"}], and leaves the state as it
    found it. *)
Theorem greetings_constant {S E : Type} (s : S) :
  read_root (E := E) s
    = (Return (PDict [(lit "message", PStr (lit "Hello from FastAPI Backend!"))]), s)
  ∧ hello (E := E) s
    = (Return (PDict [(lit "message", PStr (lit "Hello from the backend API!"))]), s).
Proof. split; reflexivity. Qed.

(** ** GET /test *)

Section Prober.
Context {LeadModel db_state : Type}.
Implicit Types w : World LeadModel db_state.

(** The outer [try] of the handler catches whatever its body raises. *)
Lemma probe_returns w (response : dict) : (probe w response).1 = Return ().
Proof.
  unfold probe, verify_connectivity, mark_available, response_set.
  unfold try_except, call, modify, mbind, py_bind.
  destruct (import_db w) as [[db|]|e].
  - destruct (list_collection_names db); reflexivity.
  - reflexivity.
  - destruct (is_ImportError e); reflexivity.
Qed.

(** The report is what the probe left in [response], with the two
    environment flags assigned last. *)
Lemma test_database_split w :
  test_database w =
  Return
    (setitem (lit "database_name") (env_flag (getenv w (lit "DATABASE_NAME")))
       (setitem (lit "database_url") (env_flag (getenv w (lit "DATABASE_URL")))
          (probe w initial_response).2)).
Proof.
  unfold test_database, test_database_body, check_environment, response_set.
  pose proof (probe_returns w initial_response) as Hp.
  unfold put, get, modify, mbind, py_bind.
  destruct (probe w initial_response) as [[[]|e] response]; simpl in Hp.
  - reflexivity.
  - discriminate Hp.
Qed.

(** What each path through lines 40-63 leaves in [response]. *)
Lemma probe_module_missing w e :
  import_db w = Raise e → is_ImportError e = true →
  (probe w initial_response).2 =
  setitem (lit "database")
    (PStr (lit "❌ Database module not found (run enable-database first)"))
    initial_response.
Proof.
  intros Hdb He. unfold probe, try_except, call, mbind, py_bind.
  rewrite Hdb, He. reflexivity.
Qed.

Lemma probe_import_raises w e :
  import_db w = Raise e → is_ImportError e = false →
  (probe w initial_response).2 =
  setitem (lit "database") (PStr (lit "❌ Error: " ++ take 50 (str e)))
    initial_response.
Proof.
  intros Hdb He. unfold probe, try_except, call, mbind, py_bind.
  rewrite Hdb, He. reflexivity.
Qed.

Lemma probe_not_initialized w :
  import_db w = Return None →
  (probe w initial_response).2 =
  setitem (lit "database") (PStr (lit "⚠️  Available but not initialized"))
    initial_response.
Proof.
  intros Hdb. unfold probe, try_except, call, mbind, py_bind.
  rewrite Hdb. reflexivity.
Qed.

(** The inner [try] catches whatever the listing raises. *)
Lemma verify_connectivity_returns db (response : dict) :
  (verify_connectivity db response).1 = Return ().
Proof.
  unfold verify_connectivity, response_set, try_except, call, modify.
  unfold mbind, py_bind.
  destruct (list_collection_names db); reflexivity.
Qed.

Lemma probe_listing w db :
  import_db w = Return (Some db) →
  (probe w initial_response).2 =
  (verify_connectivity db (mark_available db initial_response).2).2.
Proof.
  intros Hdb. unfold probe, try_except, call, mbind, py_bind.
  rewrite Hdb. unfold mark_available, response_set, modify, mbind, py_bind.
  cbn [snd].
  match goal with
  | |- context [verify_connectivity db ?r] =>
    pose proof (verify_connectivity_returns db r) as Hv;
    destruct (verify_connectivity db r) as [[[]|e] response]
  end.
  - reflexivity.
  - discriminate Hv.
Qed.

Lemma verify_connectivity_working db collections (response : dict) :
  list_collection_names db = Return collections →
  (verify_connectivity db response).2 =
  setitem (lit "database") (PStr (lit "✅ Connected & Working"))
    (setitem (lit "collections") (PList (PStr <$> take 10 collections)) response).
Proof.
  intros Hl. unfold verify_connectivity, try_except, call, mbind, py_bind.
  rewrite Hl. reflexivity.
Qed.

Lemma verify_connectivity_error db e (response : dict) :
  list_collection_names db = Raise e →
  (verify_connectivity db response).2 =
  setitem (lit "database")
    (PStr (lit "⚠️  Connected but Error: " ++ take 50 (str e))) response.
Proof.
  intros Hl. unfold verify_connectivity, try_except, call, mbind, py_bind.
  rewrite Hl. reflexivity.
Qed.

(** The state of [response] after lines 45-48. *)
Lemma mark_available_response db :
  mark_available db initial_response =
  (Return (),
   [ (lit "backend", PStr (lit "✅ Running"));
     (lit "database", PStr (lit "✅ Available"));
     (lit "database_url", PStr (lit "✅ Configured"));
     (lit "database_name",
      match name db with Some n => n | None => PStr (lit "✅ Connected") end);
     (lit "connection_status", PStr (lit "Connected"));
     (lit "collections", PList []) ]).
Proof.
  unfold mark_available.
  generalize (match name db with Some n => n | None => PStr (lit "✅ Connected") end).
  intros label. vm_compute. reflexivity.
Qed.
End Prober.

Ltac dict_lookup :=
  repeat first
    [ rewrite getitem_setitem_eq
    | rewrite getitem_setitem_ne by (vm_compute; reflexivity) ].

Section ProberClaims.
Context {LeadModel db_state : Type}.
Implicit Types w : World LeadModel db_state.

(** C4. GET /test is total.  Whatever the import of the database module
    does (raise [ImportError], raise anything else, yield [None], yield a
    handle) and whatever the listing does (return or raise), no exception
    leaves the handler: it returns a report with its six fields, of
    which [database_url] and [database_name] are the flags computed from
    [DATABASE_URL] and [DATABASE_NAME]. *)
Theorem test_database_total w :
  ∃ backend database connection_status collections,
    test_database w =
    Return
      [ (lit "backend", PStr backend);
        (lit "database", PStr database);
        (lit "database_url", env_flag (getenv w (lit "DATABASE_URL")));
        (lit "database_name", env_flag (getenv w (lit "DATABASE_NAME")));
        (lit "connection_status", PStr connection_status);
        (lit "collections", PList collections) ].
Proof.
  rewrite test_database_split.
  generalize (env_flag (getenv w (lit "DATABASE_NAME")))
             (env_flag (getenv w (lit "DATABASE_URL"))).
  intros name_flag url_flag.
  destruct (import_db w) as [[db|]|e] eqn:Hdb.
  - rewrite (probe_listing w db Hdb), mark_available_response. cbn [snd].
    destruct (list_collection_names db) as [collections|e] eqn:Hl.
    + rewrite (verify_connectivity_working db collections _ Hl).
      vm_compute. do 4 eexists; reflexivity.
    + rewrite (verify_connectivity_error db e _ Hl).
      vm_compute. do 4 eexists; reflexivity.
  - rewrite (probe_not_initialized w Hdb).
    vm_compute. do 4 eexists; reflexivity.
  - destruct (is_ImportError e) eqn:He.
    + rewrite (probe_module_missing w e Hdb He).
      vm_compute. do 4 eexists; reflexivity.
    + rewrite (probe_import_raises w e Hdb He).
      vm_compute. do 4 eexists; reflexivity.
Qed.


(** C6. [database_url] is "Not Set" when [DATABASE_URL] is unset or
    empty and "Set" when it holds a non-empty string; [database_name]
    follows [DATABASE_NAME] in the same way; and two worlds with the same
    environment report the same two fields, whatever their database
    modules do. *)
Theorem test_database_env_flags w :
  (getenv w (lit "DATABASE_URL") = None ∨ getenv w (lit "DATABASE_URL") = Some [] →
     report_field (lit "database_url") w = Some (PStr (lit "❌ Not Set")))
  ∧ (∀ v, getenv w (lit "DATABASE_URL") = Some v → v ≠ [] →
     report_field (lit "database_url") w = Some (PStr (lit "✅ Set")))
  ∧ (getenv w (lit "DATABASE_NAME") = None ∨ getenv w (lit "DATABASE_NAME") = Some [] →
     report_field (lit "database_name") w = Some (PStr (lit "❌ Not Set")))
  ∧ (∀ v, getenv w (lit "DATABASE_NAME") = Some v → v ≠ [] →
     report_field (lit "database_name") w = Some (PStr (lit "✅ Set")))
  ∧ (∀ w' : World LeadModel db_state, environ w' = environ w →
     report_field (lit "database_url") w' = report_field (lit "database_url") w
     ∧ report_field (lit "database_name") w' = report_field (lit "database_name") w).
Proof.
  assert (Hurl : ∀ w0 : World LeadModel db_state,
    report_field (lit "database_url") w0
      = Some (env_flag (getenv w0 (lit "DATABASE_URL")))).
  { intros w0. unfold report_field. rewrite test_database_split.
    dict_lookup; reflexivity. }
  assert (Hname : ∀ w0 : World LeadModel db_state,
    report_field (lit "database_name") w0
      = Some (env_flag (getenv w0 (lit "DATABASE_NAME")))).
  { intros w0. unfold report_field. rewrite test_database_split.
    dict_lookup; reflexivity. }
  split; [|split; [|split; [|split]]].
  - intros [H|H]; rewrite Hurl, H; reflexivity.
  - intros [|c v] H Hne; [congruence|]. rewrite Hurl, H. reflexivity.
  - intros [H|H]; rewrite Hname, H; reflexivity.
  - intros [|c v] H Hne; [congruence|]. rewrite Hname, H. reflexivity.
  - intros w' Henv. rewrite !Hurl, !Hname. unfold getenv. rewrite Henv.
    split; reflexivity.
Qed.
End ProberClaims.

Section ProberReport.
Context {LeadModel db_state : Type}.
Implicit Types w : World LeadModel db_state.

End ProberReport.




(** C6 with [DATABASE_URL] unset, then set, and [DATABASE_NAME] unset. *)
Lemma test_database_env_flags_witness :
  report_field (lit "database_url") world_without_database
    = Some (PStr (lit "❌ Not Set"))
  ∧ report_field (lit "database_url") wired_world = Some (PStr (lit "✅ Set"))
  ∧ report_field (lit "database_name") wired_world
    = Some (PStr (lit "❌ Not Set")).
Proof.
  split; [|split].
  - destruct (test_database_env_flags world_without_database) as (Hunset & _).
    apply Hunset. left. vm_compute. reflexivity.
  - destruct (test_database_env_flags wired_world) as (_ & Hset & _).
    apply (Hset (lit "mongodb://localhost:27017")).
    + vm_compute. reflexivity.
    + vm_compute. discriminate.
  - destruct (test_database_env_flags wired_world) as (_ & _ & Hunset & _).
    apply Hunset. left. vm_compute. reflexivity.
Defined.

(** ** POST /api/leads *)

Section LeadIntake.
Context {LeadModel db_state : Type}.
Implicit Types (g : globals LeadModel db_state) (w : World LeadModel db_state).
Implicit Types (L : LeadClass LeadModel) (cd : CreateDocument LeadModel db_state).
Implicit Types (s : server LeadModel db_state) (t : list (event LeadModel)).

Lemma persistence_calls_app t t' :
  persistence_calls (t ++ t') = (persistence_calls t + persistence_calls t')%nat.
Proof.
  induction t as [|[kwargs|kind value] t IH]; simpl; [reflexivity|exact IH|].
  rewrite IH; reflexivity.
Qed.

(** Start-up binds both names or neither. *)
Lemma startup_wired w L cd :
  import_Lead w = Return (Some L) →
  import_create_document w = Return (Some cd) →
  startup w = {| Lead := Some L; create_document := Some cd |}.
Proof. unfold startup. intros -> ->. reflexivity. Qed.

Lemma startup_import_raises w :
  (∃ e, import_Lead w = Raise e) ∨ (∃ e, import_create_document w = Raise e) →
  startup w = {| Lead := None; create_document := None |}.
Proof.
  unfold startup. intros [[e ->]|[e ->]]; [reflexivity|].
  destruct (import_Lead w); reflexivity.
Qed.

(** The guard of line 84. *)
Lemma create_lead_guard g lead s :
  Lead g = None ∨ create_document g = None →
  create_lead g lead s =
  (Raise (mk_HTTPException 500 (lit "Database not configured")), s).
Proof.
  unfold create_lead. intros [->| ->]; [reflexivity|].
  destruct (Lead g); reflexivity.
Qed.

(** Past the guard, a constructor that raises ends the request at
    line 91. *)
Lemma create_lead_rejects g L cd lead e s :
  Lead g = Some L → create_document g = Some cd →
  Lead_new L lead = Raise e →
  create_lead g lead s =
  (Raise (mk_HTTPException 422 (str e)), (Lead_call L lead s).2).
Proof.
  intros HL Hcd Hnew. unfold create_lead. rewrite HL, Hcd.
  apply bind_Raise. unfold try_except, Lead_call, raise.
  rewrite Hnew. reflexivity.
Qed.

(** Evaluating line 89 makes no call to [create_document] and leaves the
    store alone. *)
Lemma Lead_call_no_persistence L lead s :
  store (Lead_call L lead s).2 = store s
  ∧ persistence_calls (trace (Lead_call L lead s).2) = persistence_calls (trace s).
Proof.
  unfold Lead_call. destruct lead; simpl; try (split; reflexivity).
  rewrite persistence_calls_app. simpl. split; [reflexivity|lia].
Qed.

(** C1, as amended.  Let the payload be a mapping that the Lead schema
    rejects with exception [e].  When [Lead] and [create_document] are
    both wired, the handler raises the 422 error whose detail is [str e];
    and whether the service is wired or start-up has reset [Lead] to
    [None], [create_document] is not called and the store is unchanged. *)
Theorem create_lead_invalid g L kwargs e s :
  validate L kwargs = Raise e →
  (Lead g = Some L → is_Some (create_document g) →
     (create_lead g (PDict kwargs) s).1 = Raise (mk_HTTPException 422 (str e)))
  ∧ (Lead g = Some L ∨ Lead g = None →
     store (create_lead g (PDict kwargs) s).2 = store s
     ∧ persistence_calls (trace (create_lead g (PDict kwargs) s).2)
         = persistence_calls (trace s)).
Proof.
  intros Hv. split.
  - intros HL [cd Hcd].
    rewrite (create_lead_rejects g L cd (PDict kwargs) e s HL Hcd Hv). reflexivity.
  - intros [HL|HL].
    + destruct (create_document g) as [cd|] eqn:Hcd.
      * rewrite (create_lead_rejects g L cd (PDict kwargs) e s HL Hcd Hv).
        apply Lead_call_no_persistence.
      * rewrite create_lead_guard by (right; exact Hcd). split; reflexivity.
    + rewrite create_lead_guard by (left; exact HL). split; reflexivity.
Qed.

(** C2.  With [Lead] and [create_document] wired, a payload that the
    schema accepts and a call of [create_document] that returns
    [lead_id], the handler returns [{"status": "ok", "id": lead_id}], the
    store is the one that call left, and the handler has made two calls:
    the constructor, then [create_document] once, on the kind "lead" and
    the validated value.  The identifier is not empty, by the contract of
    [create_document]. *)
Theorem create_lead_valid g L cd kwargs lead_model lead_id s st' :
  Lead g = Some L → create_document g = Some cd →
  returns_generated_id cd →
  validate L kwargs = Return lead_model →
  cd (lit "lead") lead_model (store s) = (Return lead_id, st') →
  create_lead g (PDict kwargs) s =
    (Return (PDict [(lit "status", PStr (lit "ok")); (lit "id", PStr lead_id)]),
     {| store := st';
        trace := trace s ++ [Lead_called kwargs;
                             create_document_called (lit "lead") lead_model] |})
  ∧ lead_id ≠ []
  ∧ persistence_calls
      (trace s ++ [Lead_called kwargs;
                   create_document_called (lit "lead") lead_model])
    = Datatypes.S (persistence_calls (trace s)).
Proof.
  intros HL Hcd Hid Hv Hcall. split; [|split].
  - unfold create_lead. rewrite HL, Hcd.
    rewrite (bind_Return _ _ s lead_model (log (Lead_called kwargs) s)).
    + unfold try_except, create_document_call, mbind, py_bind.
      unfold log; cbn [store trace]. rewrite Hcall.
      rewrite <- app_assoc. reflexivity.
    + apply try_except_Return. unfold Lead_call, Lead_new.
      rewrite Hv. reflexivity.
  - exact (Hid _ _ _ _ _ Hcall).
  - rewrite persistence_calls_app. simpl. lia.
Qed.

(** C3.  When [Lead] or [create_document] is [None] -- which is what
    start-up leaves when either import raised, or bound the name to
    [None] -- the handler raises the 500 error "Database not configured"
    for every payload, with the server untouched: nothing was validated,
    nothing was stored. *)
Theorem create_lead_not_wired g w lead s :
  (Lead g = None ∨ create_document g = None →
     create_lead g lead s =
     (Raise (mk_HTTPException 500 (lit "Database not configured")), s))
  ∧ ((∃ e, import_Lead w = Raise e) ∨ (∃ e, import_create_document w = Raise e)
     ∨ import_Lead w = Return None ∨ import_create_document w = Return None →
     create_lead (startup w) lead s =
     (Raise (mk_HTTPException 500 (lit "Database not configured")), s)).
Proof.
  split; [apply create_lead_guard|].
  intros H. apply create_lead_guard.
  destruct H as [H|[H|[H|H]]].
  - rewrite startup_import_raises by (left; exact H). left; reflexivity.
  - rewrite startup_import_raises by (right; exact H). left; reflexivity.
  - unfold startup. rewrite H.
    destruct (import_create_document w); left; reflexivity.
  - unfold startup. rewrite H.
    destruct (import_Lead w); [right|left]; reflexivity.
Qed.

(** C10.  Past the guard, every exception [e] raised by the construction
    of the Lead value becomes the 422 error with detail [str e], and
    nothing is stored.  In particular a payload that is not a mapping (a
    list, a number, a string, [None]) never reaches the class: the
    [TypeError] of the unpacking becomes the 422 error, and the server is
    untouched. *)
Theorem create_lead_construction_error g L cd lead s :
  Lead g = Some L → create_document g = Some cd →
  (∀ e, Lead_new L lead = Raise e →
     (create_lead g lead s).1 = Raise (mk_HTTPException 422 (str e))
     ∧ store (create_lead g lead s).2 = store s
     ∧ persistence_calls (trace (create_lead g lead s).2)
         = persistence_calls (trace s))
  ∧ ((∀ kwargs, lead ≠ PDict kwargs) →
     create_lead g lead s =
     (Raise (mk_HTTPException 422
               (funcstr L ++ lit " argument after ** must be a mapping, not "
                  ++ type_name lead)), s)).
Proof.
  intros HL Hcd. split.
  - intros e Hnew. rewrite (create_lead_rejects g L cd lead e s HL Hcd Hnew).
    split; [reflexivity|]. apply Lead_call_no_persistence.
  - intros Hnot.
    destruct lead as [| | | | |kwargs];
      try (erewrite create_lead_rejects by (eassumption || reflexivity);
           reflexivity).
    destruct (Hnot kwargs eq_refl).
Qed.
End LeadIntake.

(** ** GET /schema *)

Section SchemaCatalog.
Context {LeadModel db_state : Type}.
Implicit Types w : World LeadModel db_state.
Implicit Types (m : list (pystr * pyobj)) (result : dict).


(** Over names that are all different and not yet keys of [result], the
    loop appends one entry per model class, in the order of the names. *)
Lemma get_schema_loop_appends m result :
  NoDup (result.*1 ++ m.*1) →
  existsb schema_raises m = false →
  get_schema_loop m result = (Return (), result ++ omap catalog_entry m).
Proof.
  revert result. induction m as [|[name obj] m IH]; intros result Hnd Hok.
  - simpl. rewrite app_nil_r. reflexivity.
  - assert (Hfresh : name ∉ result.*1).
    { apply NoDup_app in Hnd as (_ & Hdisj & _).
      intros Hin. apply (Hdisj name Hin). simpl. left. }
    assert (Hrest : NoDup (result.*1 ++ m.*1)).
    { apply NoDup_app in Hnd as (Hr & Hdisj & Hm).
      apply NoDup_app. split; [exact Hr|]. split.
      - intros x Hx Hx'. apply (Hdisj x Hx). simpl. right. exact Hx'.
      - apply NoDup_cons in Hm as [_ Hm]. exact Hm. }
    destruct obj as [| | |[schema|e]]; simpl in Hok;
      try (exact (IH result Hrest Hok)); [|discriminate].
    change (get_schema_loop m (setitem name schema result)
            = (Return (), result ++ (name, schema) :: omap catalog_entry m)).
    rewrite (setitem_fresh name schema result Hfresh), IH.
    + rewrite <- app_assoc. reflexivity.
    + rewrite fmap_app, <- app_assoc. exact Hnd.
    + exact Hok.
Qed.

(** An entry of the catalog is a binding of the module to a model
    class, with the description of that class. *)
Lemma getitem_catalog m name schema :
  NoDup m.*1 →
  getitem name (omap catalog_entry m) = Some schema
  ↔ (name, ModelClass (Return schema)) ∈ m.
Proof.
  induction m as [|[name' obj] m IH]; intros Hnd.
  - simpl. split; [discriminate|]. intros H; inversion H.
  - apply NoDup_cons in Hnd as [Hfresh Hnd]. specialize (IH Hnd).
    assert (Htail : (name, ModelClass (Return schema)) ∈ m → name ≠ name').
    { intros Hin ->. apply Hfresh.
      apply (list_elem_of_fmap_2 fst) in Hin. exact Hin. }
    rewrite elem_of_cons.
    destruct obj as [| | |[schema'|e]]; simpl;
      try (rewrite IH; split; [tauto|]; intros [[=]|H]; exact H).
    destruct (pystr_eqb name name') eqn:E.
    + apply pystr_eqb_eq in E as ->. split.
      * intros [= ->]. left; reflexivity.
      * intros [[= ->]|H]; [reflexivity|]. destruct (Htail H eq_refl).
    + rewrite IH. split; [tauto|].
      intros [[= -> _]|H]; [|exact H].
      rewrite pystr_eqb_refl in E. discriminate.
Qed.

End SchemaCatalog.

(** ** The handlers on the example collaborators *)

(** The store kept in memory returns identifiers that start with "doc". *)
Lemma memory_create_document_contract :
  returns_generated_id memory_create_document.
Proof.
  intros kind value st lead_id st' [= <- _]. vm_compute. discriminate.
Qed.

(** C1, as stated, fails: the schemas module is there and its Lead class
    rejects the empty payload for want of an [email], but the database
    module is missing, so start-up has reset [Lead] to [None] and the
    handler answers 500 "Database not configured", not 422. *)
Lemma create_lead_invalid_without_database :
  import_Lead world_without_database = Return (Some Lead_example)
  ∧ validate Lead_example [] = Raise email_required
  ∧ create_lead (startup world_without_database) (PDict []) empty_server
    = (Raise (mk_HTTPException 500 (lit "Database not configured")), empty_server)
  ∧ (create_lead (startup world_without_database) (PDict []) empty_server).1
    ≠ Raise (mk_HTTPException 422 (str email_required)).
Proof.
  repeat split; try reflexivity. vm_compute. discriminate.
Qed.

(** C1, as amended, on the empty payload: 422 when wired, and no
    persistence call without the database module. *)
Lemma create_lead_invalid_witness :
  (create_lead (startup wired_world) (PDict []) empty_server).1
    = Raise (mk_HTTPException 422 (str email_required))
  ∧ persistence_calls
      (trace (create_lead (startup world_without_database) (PDict []) empty_server).2)
    = persistence_calls (trace empty_server).
Proof.
  split.
  - apply (proj1 (create_lead_invalid (startup wired_world) Lead_example []
                    email_required empty_server eq_refl)).
    + reflexivity.
    + exists memory_create_document. reflexivity.
  - apply (proj2 (create_lead_invalid (startup world_without_database)
                    Lead_example [] email_required empty_server eq_refl)).
    right. reflexivity.
Defined.

(** C2 on a payload with an [email], against the empty store. *)
Lemma create_lead_valid_witness :
  create_lead (startup wired_world)
    (PDict [(lit "email", PStr (lit "ada@example.org"))]) empty_server
  = (Return (PDict [(lit "status", PStr (lit "ok")); (lit "id", PStr (lit "doc"))]),
     {| store := [(lit "lead", [(lit "email", PStr (lit "ada@example.org"))])];
        trace := [ Lead_called [(lit "email", PStr (lit "ada@example.org"))];
                   create_document_called (lit "lead")
                     [(lit "email", PStr (lit "ada@example.org"))] ] |}).
Proof.
  apply (proj1 (create_lead_valid (startup wired_world) Lead_example
                  memory_create_document
                  [(lit "email", PStr (lit "ada@example.org"))]
                  [(lit "email", PStr (lit "ada@example.org"))]
                  (lit "doc")
                  empty_server
                  [(lit "lead", [(lit "email", PStr (lit "ada@example.org"))])]
                  eq_refl eq_refl memory_create_document_contract
                  eq_refl eq_refl)).
Defined.

(** C3 without the database module. *)
Lemma create_lead_not_wired_witness :
  create_lead (startup world_without_database)
    (PDict [(lit "email", PStr (lit "ada@example.org"))]) empty_server
  = (Raise (mk_HTTPException 500 (lit "Database not configured")), empty_server).
Proof.
  apply (proj2 (create_lead_not_wired (startup world_without_database)
                  world_without_database _ empty_server)).
  right. left. exists no_database. reflexivity.
Defined.

(** C10 on a JSON array, and on a mapping the schema rejects. *)
Lemma create_lead_construction_error_witness :
  create_lead (startup wired_world) (PList [PInt 1; PInt 2]) empty_server
  = (Raise (mk_HTTPException 422
        (lit "schemas.Lead() argument after ** must be a mapping, not list")),
     empty_server)
  ∧ (create_lead (startup wired_world) (PDict []) empty_server).1
    = Raise (mk_HTTPException 422 (str email_required)).
Proof.
  split.
  - apply (proj2 (create_lead_construction_error (startup wired_world)
                    Lead_example memory_create_document (PList [PInt 1; PInt 2])
                    empty_server eq_refl eq_refl)).
    intros kwargs. discriminate.
  - apply (proj1 (create_lead_construction_error (startup wired_world)
                    Lead_example memory_create_document (PDict [])
                    empty_server eq_refl eq_refl) email_required).
    reflexivity.
Defined.


(** * Further properties of the handlers *)

(** ** POST /api/leads: every path through the handler *)

Section LeadIntakePaths.
Context {LeadModel db_state : Type}.
Implicit Types (g : globals LeadModel db_state) (w : World LeadModel db_state).
Implicit Types (L : LeadClass LeadModel) (cd : CreateDocument LeadModel db_state).
Implicit Types (s : server LeadModel db_state).

(** Past the guard and past validation, the request ends at line 95 or at
    line 97, after one call of [create_document]. *)
Lemma create_lead_accepts g L cd kwargs lead_model s :
  Lead g = Some L → create_document g = Some cd →
  validate L kwargs = Return lead_model →
  create_lead g (PDict kwargs) s =
  (match (cd (lit "lead") lead_model (store s)).1 with
   | Return lead_id =>
     Return (PDict [(lit "status", PStr (lit "ok")); (lit "id", PStr lead_id)])
   | Raise e => Raise (mk_HTTPException 500 (str e))
   end,
   {| store := (cd (lit "lead") lead_model (store s)).2;
      trace := trace s ++ [Lead_called kwargs;
                           create_document_called (lit "lead") lead_model] |}).
Proof.
  intros HL Hcd Hv. unfold create_lead. rewrite HL, Hcd.
  rewrite (bind_Return _ _ s lead_model (log (Lead_called kwargs) s)).
  - unfold try_except, create_document_call, raise, mbind, py_bind, mret, py_ret.
    unfold log; cbn [store trace].
    destruct (cd (lit "lead") lead_model (store s)) as [[lead_id|e] st];
      cbn [fst snd]; rewrite <- app_assoc; reflexivity.
  - apply try_except_Return. unfold Lead_call, Lead_new.
    rewrite Hv. reflexivity.
Qed.

(** The three ways a request can go. *)
Lemma create_lead_cases g lead s :
  ((Lead g = None ∨ create_document g = None)
   ∧ create_lead g lead s =
     (Raise (mk_HTTPException 500 (lit "Database not configured")), s))
  ∨ (∃ L cd e, Lead g = Some L ∧ create_document g = Some cd
       ∧ Lead_new L lead = Raise e
       ∧ create_lead g lead s =
         (Raise (mk_HTTPException 422 (str e)), (Lead_call L lead s).2))
  ∨ (∃ L cd kwargs lead_model, Lead g = Some L ∧ create_document g = Some cd
       ∧ lead = PDict kwargs ∧ validate L kwargs = Return lead_model
       ∧ create_lead g lead s =
         (match (cd (lit "lead") lead_model (store s)).1 with
          | Return lead_id =>
            Return (PDict [(lit "status", PStr (lit "ok"));
                           (lit "id", PStr lead_id)])
          | Raise e => Raise (mk_HTTPException 500 (str e))
          end,
          {| store := (cd (lit "lead") lead_model (store s)).2;
             trace := trace s ++ [Lead_called kwargs;
                                  create_document_called (lit "lead") lead_model] |})).
Proof.
  destruct (Lead g) as [L|] eqn:HL;
    [|left; split; [left; reflexivity|apply create_lead_guard; left; exact HL]].
  destruct (create_document g) as [cd|] eqn:Hcd;
    [|left; split; [right; reflexivity|apply create_lead_guard; right; exact Hcd]].
  destruct (Lead_new L lead) as [lead_model|e] eqn:Hnew.
  - right; right. destruct lead as [| | | | |kwargs]; try discriminate Hnew.
    exists L, cd, kwargs, lead_model.
    repeat (split; [first [assumption | reflexivity]|]).
    apply (create_lead_accepts g L cd); assumption.
  - right; left. exists L, cd, e.
    repeat (split; [first [assumption | reflexivity]|]).
    apply (create_lead_rejects g L cd); assumption.
Qed.
End LeadIntakePaths.

Section LeadIntakeProperties.
Context {LeadModel db_state : Type}.
Implicit Types (g : globals LeadModel db_state) (w : World LeadModel db_state).
Implicit Types (L : LeadClass LeadModel) (cd : CreateDocument LeadModel db_state).
Implicit Types (s : server LeadModel db_state).

(** When [create_document] raises [e] on a validated payload (lines 96-97),
    the handler raises the 500 error whose detail is [str e]; it has called
    [create_document] once, on the kind "lead" and the validated value, and
    leaves the store as the failed call left it: it neither retries nor
    undoes anything. *)
Theorem create_lead_storage_error g L cd kwargs lead_model e s st' :
  Lead g = Some L → create_document g = Some cd →
  validate L kwargs = Return lead_model →
  cd (lit "lead") lead_model (store s) = (Raise e, st') →
  create_lead g (PDict kwargs) s =
  (Raise (mk_HTTPException 500 (str e)),
   {| store := st';
      trace := trace s ++ [Lead_called kwargs;
                           create_document_called (lit "lead") lead_model] |}).
Proof.
  intros HL Hcd Hv Hcall.
  rewrite (create_lead_accepts g L cd kwargs lead_model s HL Hcd Hv), Hcall.
  reflexivity.
Qed.

(** Whatever the wiring, the payload and the server state, a request ends
    in one of three ways: the body [{"status": "ok", "id": ...}], a 422
    error, or a 500 error.  The handler raises no other status and returns
    no other body. *)
Theorem create_lead_outcomes g lead s :
  (∃ lead_id, (create_lead g lead s).1 =
      Return (PDict [(lit "status", PStr (lit "ok")); (lit "id", PStr lead_id)]))
  ∨ (∃ detail, (create_lead g lead s).1 = Raise (mk_HTTPException 422 detail))
  ∨ (∃ detail, (create_lead g lead s).1 = Raise (mk_HTTPException 500 detail)).
Proof.
  destruct (create_lead_cases g lead s)
    as [[_ ->]|[(L & cd & e & _ & _ & _ & ->)
               |(L & cd & kwargs & lead_model & _ & _ & _ & _ & ->)]].
  - right; right. eexists; reflexivity.
  - right; left. eexists; reflexivity.
  - cbn [fst]. destruct (cd (lit "lead") lead_model (store s)).1 as [lead_id|e].
    + left. eexists; reflexivity.
    + right; right. eexists; reflexivity.
Qed.

(** Validation comes before persistence.  The calls a request adds to the
    trace are none (guard, or a payload that is not a mapping), or the
    constructor alone with the store unchanged, or the constructor followed
    by one [create_document] on the kind "lead" and on the very value the
    constructor returned for this payload.  So what the schema rejects is
    never handed to the store, and a request stores at most once. *)
Theorem create_lead_persists_only_validated g lead s :
  ∃ new, trace (create_lead g lead s).2 = trace s ++ new
  ∧ ((new = [] ∧ store (create_lead g lead s).2 = store s)
     ∨ (∃ L kwargs e, Lead g = Some L ∧ lead = PDict kwargs
          ∧ validate L kwargs = Raise e
          ∧ new = [Lead_called kwargs]
          ∧ store (create_lead g lead s).2 = store s)
     ∨ (∃ L cd kwargs lead_model, Lead g = Some L ∧ create_document g = Some cd
          ∧ lead = PDict kwargs ∧ validate L kwargs = Return lead_model
          ∧ new = [Lead_called kwargs;
                   create_document_called (lit "lead") lead_model]
          ∧ store (create_lead g lead s).2
            = (cd (lit "lead") lead_model (store s)).2)).
Proof.
  destruct (create_lead_cases g lead s)
    as [[_ ->]|[(L & cd & e & HL & Hcd & Hnew & ->)
               |(L & cd & kwargs & lead_model & HL & Hcd & -> & Hv & ->)]].
  - exists []. rewrite app_nil_r. split; [reflexivity|]. left. split; reflexivity.
  - destruct lead as [| | | | |kwargs];
      try (exists []; cbn [snd Lead_call]; rewrite app_nil_r;
           split; [reflexivity|]; left; split; reflexivity).
    exists [Lead_called kwargs]. split; [reflexivity|].
    right; left. exists L, kwargs, e. repeat split; [exact HL|exact Hnew].
  - eexists. split; [reflexivity|].
    right; right. exists L, cd, kwargs, lead_model.
    repeat split; assumption.
Qed.

(** The handler returns a body exactly when every step went through:
    both names wired, the payload a mapping that the schema accepts, and
    [create_document] returning an identifier, which is the [id] of the
    body. *)
Theorem create_lead_returns_iff g lead s body :
  (create_lead g lead s).1 = Return body
  ↔ ∃ L cd kwargs lead_model lead_id st',
      Lead g = Some L ∧ create_document g = Some cd
      ∧ lead = PDict kwargs ∧ validate L kwargs = Return lead_model
      ∧ cd (lit "lead") lead_model (store s) = (Return lead_id, st')
      ∧ body = PDict [(lit "status", PStr (lit "ok")); (lit "id", PStr lead_id)].
Proof.
  split.
  - destruct (create_lead_cases g lead s)
      as [[_ ->]|[(L & cd & e & _ & _ & _ & ->)
                 |(L & cd & kwargs & lead_model & HL & Hcd & -> & Hv & ->)]];
      try discriminate.
    cbn [fst].
    destruct (cd (lit "lead") lead_model (store s)) as [[lead_id|e] st'] eqn:Hcall;
      cbn [fst]; [|discriminate].
    intros [= <-]. exists L, cd, kwargs, lead_model, lead_id, st'.
    repeat split; assumption.
  - intros (L & cd & kwargs & lead_model & lead_id & st'
            & HL & Hcd & -> & Hv & Hcall & ->).
    rewrite (create_lead_accepts g L cd kwargs lead_model s HL Hcd Hv), Hcall.
    reflexivity.
Qed.


(** No deduplication: the same accepted payload submitted twice is handed
    to [create_document] twice, the second time against the store the first
    call left, and the second response carries the second identifier. *)
Theorem create_lead_twice g L cd kwargs lead_model id1 id2 s st1 st2 :
  Lead g = Some L → create_document g = Some cd →
  validate L kwargs = Return lead_model →
  cd (lit "lead") lead_model (store s) = (Return id1, st1) →
  cd (lit "lead") lead_model st1 = (Return id2, st2) →
  create_lead g (PDict kwargs) (create_lead g (PDict kwargs) s).2 =
  (Return (PDict [(lit "status", PStr (lit "ok")); (lit "id", PStr id2)]),
   {| store := st2;
      trace := trace s ++ [Lead_called kwargs;
                           create_document_called (lit "lead") lead_model;
                           Lead_called kwargs;
                           create_document_called (lit "lead") lead_model] |})
  ∧ persistence_calls
      (trace (create_lead g (PDict kwargs) (create_lead g (PDict kwargs) s).2).2)
    = (2 + persistence_calls (trace s))%nat.
Proof.
  intros HL Hcd Hv Hcall1 Hcall2.
  rewrite (create_lead_accepts g L cd kwargs lead_model s HL Hcd Hv), Hcall1.
  cbn [fst snd].
  rewrite (create_lead_accepts g L cd kwargs lead_model _ HL Hcd Hv).
  cbn [store trace]. rewrite Hcall2. cbn [fst snd trace].
  rewrite <- app_assoc. split; [reflexivity|].
  rewrite persistence_calls_app. simpl. lia.
Qed.
End LeadIntakeProperties.

(** ** GET /test: the whole report *)

Section ProberPaths.
Context {LeadModel db_state : Type}.
Implicit Types w : World LeadModel db_state.

(** The report in terms of what the import and the listing did. *)
Lemma test_database_report w :
  test_database w =
  Return
    [ (lit "backend", PStr (lit "✅ Running"));
      (lit "database",
       PStr match import_db w with
            | Return (Some db) =>
              match list_collection_names db with
              | Return _ => lit "✅ Connected & Working"
              | Raise e => lit "⚠️  Connected but Error: " ++ take 50 (str e)
              end
            | Return None => lit "⚠️  Available but not initialized"
            | Raise e =>
              if is_ImportError e
              then lit "❌ Database module not found (run enable-database first)"
              else lit "❌ Error: " ++ take 50 (str e)
            end);
      (lit "database_url", env_flag (getenv w (lit "DATABASE_URL")));
      (lit "database_name", env_flag (getenv w (lit "DATABASE_NAME")));
      (lit "connection_status",
       PStr match import_db w with
            | Return (Some _) => lit "Connected"
            | _ => lit "Not Connected"
            end);
      (lit "collections",
       PList match import_db w with
             | Return (Some db) =>
               match list_collection_names db with
               | Return collections => PStr <$> take 10 collections
               | Raise _ => []
               end
             | _ => []
             end) ].
Proof.
  rewrite test_database_split.
  generalize (env_flag (getenv w (lit "DATABASE_NAME")))
             (env_flag (getenv w (lit "DATABASE_URL"))).
  intros name_flag url_flag.
  destruct (import_db w) as [[db|]|e] eqn:Hdb.
  - rewrite (probe_listing w db Hdb), mark_available_response. cbn [snd].
    destruct (list_collection_names db) as [collections|e] eqn:Hl.
    + rewrite (verify_connectivity_working db collections _ Hl).
      vm_compute. reflexivity.
    + rewrite (verify_connectivity_error db e _ Hl).
      vm_compute. reflexivity.
  - rewrite (probe_not_initialized w Hdb). vm_compute. reflexivity.
  - destruct (is_ImportError e) eqn:He.
    + rewrite (probe_module_missing w e Hdb He). vm_compute. reflexivity.
    + rewrite (probe_import_raises w e Hdb He). vm_compute. reflexivity.
Qed.

(** An import that raises something other than [ImportError] (lines
    62-63) is reported as "Error: " followed by the first 50 characters of
    the message, with the rest of the report as it was initialised: not
    connected, no collections.  A message of at most 50 characters is
    reported whole. *)
Theorem test_database_import_crash w e :
  import_db w = Raise e → is_ImportError e = false →
  test_database w =
    Return
      [ (lit "backend", PStr (lit "✅ Running"));
        (lit "database", PStr (lit "❌ Error: " ++ take 50 (str e)));
        (lit "database_url", env_flag (getenv w (lit "DATABASE_URL")));
        (lit "database_name", env_flag (getenv w (lit "DATABASE_NAME")));
        (lit "connection_status", PStr (lit "Not Connected"));
        (lit "collections", PList []) ]
  ∧ ((length (str e) ≤ 50)%nat →
     report_field (lit "database") w = Some (PStr (lit "❌ Error: " ++ str e))).
Proof.
  intros Hdb He.
  assert (Hreport := test_database_report w). rewrite Hdb, He in Hreport.
  split; [exact Hreport|].
  intros Hlen. unfold report_field. rewrite Hreport.
  rewrite (take_ge (str e) 50 Hlen). vm_compute. reflexivity.
Qed.



(** However long an error message is, the [database] status is a string
    of at most 75 characters. *)
Theorem test_database_status_bounded w :
  ∃ status, report_field (lit "database") w = Some (PStr status)
            ∧ (length status ≤ 75)%nat.
Proof.
  unfold report_field. rewrite test_database_report.
  assert (Hcut : ∀ prefix msg : pystr,
            (length prefix ≤ 25)%nat → (length (prefix ++ take 50 msg) ≤ 75)%nat).
  { intros prefix msg Hprefix. rewrite length_app, length_take. lia. }
  destruct (import_db w) as [[db|]|e].
  - destruct (list_collection_names db) as [collections|e].
    + exists (lit "✅ Connected & Working").
      split; vm_compute; [reflexivity|lia].
    + exists (lit "⚠️  Connected but Error: " ++ take 50 (str e)).
      split; [vm_compute; reflexivity|]. apply Hcut. vm_compute. lia.
  - exists (lit "⚠️  Available but not initialized").
    split; vm_compute; [reflexivity|lia].
  - destruct (is_ImportError e).
    + exists (lit "❌ Database module not found (run enable-database first)").
      split; vm_compute; [reflexivity|lia].
    + exists (lit "❌ Error: " ++ take 50 (str e)).
      split; [vm_compute; reflexivity|]. apply Hcut. vm_compute. lia.
Qed.

End ProberPaths.

(** ** The handlers side by side *)

Section AcrossHandlers.
Context {LeadModel db_state : Type}.
Implicit Types (w : World LeadModel db_state) (s : server LeadModel db_state).

(** The catalog of a module whose descriptions can all be computed. *)
Lemma get_schema_of_module w (m : list (pystr * pyobj)) :
  import_schemas w = Return m → existsb schema_raises m = false → NoDup m.*1 →
  get_schema w = Return (omap catalog_entry m).
Proof.
  intros H Hok Hnd.
  unfold get_schema, get_schema_body, try_except, call, put, get.
  unfold mbind, py_bind. rewrite H.
  rewrite (get_schema_loop_appends m [] Hnd Hok). reflexivity.
Qed.

(** GET /schema imports the schemas module on its own, apart from the
    start-up block.  So when the schemas module is sound but the import of
    [create_document] raised, the catalog still lists the [Lead] schema
    while POST /api/leads answers every payload with the 500 error. *)
Theorem schema_listed_while_intake_unwired w (m : list (pystr * pyobj))
    schema e lead s :
  import_schemas w = Return m → existsb schema_raises m = false → NoDup m.*1 →
  (lit "Lead", ModelClass (Return schema)) ∈ m →
  import_create_document w = Raise e →
  (∃ result, get_schema w = Return result
             ∧ getitem (lit "Lead") result = Some schema)
  ∧ create_lead (startup w) lead s =
    (Raise (mk_HTTPException 500 (lit "Database not configured")), s).
Proof.
  intros H Hok Hnd Hin Hcd. split.
  - exists (omap catalog_entry m). split.
    + apply get_schema_of_module; assumption.
    + apply getitem_catalog; assumption.
  - apply create_lead_guard. left.
    rewrite startup_import_raises by (right; exists e; exact Hcd). reflexivity.
Qed.

End AcrossHandlers.

(** ** The further properties on the example collaborators *)

(** A write rejected by the store: 500 with the message of the store, one
    call made, nothing stored. *)
Lemma create_lead_storage_error_witness :
  create_lead (startup world_with_rejecting_store)
    (PDict [(lit "email", PStr (lit "ada@example.org"))]) empty_server
  = (Raise (mk_HTTPException 500 (lit "not primary: write rejected")),
     {| store := [];
        trace := [ Lead_called [(lit "email", PStr (lit "ada@example.org"))];
                   create_document_called (lit "lead")
                     [(lit "email", PStr (lit "ada@example.org"))] ] |}).
Proof.
  apply (create_lead_storage_error (startup world_with_rejecting_store)
           Lead_example rejecting_create_document
           [(lit "email", PStr (lit "ada@example.org"))]
           [(lit "email", PStr (lit "ada@example.org"))]
           write_rejected empty_server [] eq_refl eq_refl eq_refl eq_refl).
Defined.

(** The accepted payload returns its body. *)
Lemma create_lead_returns_iff_witness :
  (create_lead (startup wired_world)
     (PDict [(lit "email", PStr (lit "ada@example.org"))]) empty_server).1
  = Return (PDict [(lit "status", PStr (lit "ok")); (lit "id", PStr (lit "doc"))]).
Proof.
  apply (proj2 (create_lead_returns_iff (startup wired_world) _ empty_server _)).
  exists Lead_example, memory_create_document,
    [(lit "email", PStr (lit "ada@example.org"))],
    [(lit "email", PStr (lit "ada@example.org"))],
    (lit "doc"),
    [(lit "lead", [(lit "email", PStr (lit "ada@example.org"))])].
  repeat split; reflexivity.
Defined.


(** One payload submitted twice to the store kept in memory: two
    documents, two identifiers. *)
Lemma create_lead_twice_witness :
  create_lead (startup wired_world)
    (PDict [(lit "email", PStr (lit "ada@example.org"))])
    (create_lead (startup wired_world)
       (PDict [(lit "email", PStr (lit "ada@example.org"))]) empty_server).2
  = (Return (PDict [(lit "status", PStr (lit "ok")); (lit "id", PStr (lit "doc#"))]),
     {| store := [ (lit "lead", [(lit "email", PStr (lit "ada@example.org"))]);
                   (lit "lead", [(lit "email", PStr (lit "ada@example.org"))]) ];
        trace := [ Lead_called [(lit "email", PStr (lit "ada@example.org"))];
                   create_document_called (lit "lead")
                     [(lit "email", PStr (lit "ada@example.org"))];
                   Lead_called [(lit "email", PStr (lit "ada@example.org"))];
                   create_document_called (lit "lead")
                     [(lit "email", PStr (lit "ada@example.org"))] ] |}).
Proof.
  apply (proj1 (create_lead_twice (startup wired_world) Lead_example
                  memory_create_document
                  [(lit "email", PStr (lit "ada@example.org"))]
                  [(lit "email", PStr (lit "ada@example.org"))]
                  (lit "doc") (lit "doc#") empty_server
                  [(lit "lead", [(lit "email", PStr (lit "ada@example.org"))])]
                  [ (lit "lead", [(lit "email", PStr (lit "ada@example.org"))]);
                    (lit "lead", [(lit "email", PStr (lit "ada@example.org"))]) ]
                  eq_refl eq_refl eq_refl eq_refl eq_refl)).
Defined.

(** The import that raises on a malformed URI: the message is cut after
    50 characters. *)
Lemma test_database_import_crash_witness :
  report_field (lit "database") world_with_crashing_import
  = Some (PStr (lit "❌ Error: Invalid URI scheme: URI must begin with 'mongodb:/")).
Proof.
  destruct (test_database_import_crash world_with_crashing_import invalid_uri
              eq_refl eq_refl) as [Hreport _].
  unfold report_field. rewrite Hreport. vm_compute. reflexivity.
Defined.



(** Without the database module the catalog still lists [Lead]. *)
Lemma schema_listed_while_intake_unwired_witness :
  (∃ result, get_schema world_without_database = Return result
             ∧ getitem (lit "Lead") result
               = Some (PDict [(lit "title", PStr (lit "Lead"))]))
  ∧ create_lead (startup world_without_database) (PDict []) empty_server =
    (Raise (mk_HTTPException 500 (lit "Database not configured")), empty_server).
Proof.
  apply (schema_listed_while_intake_unwired world_without_database
           schemas_example _ no_database (PDict []) empty_server
           eq_refl eq_refl).
  - apply (bool_decide_unpack _). vm_compute. exact I.
  - unfold schemas_example.
    do 2 apply list_elem_of_further. apply list_elem_of_here.
  - reflexivity.
Defined.

